(** * toolkit_theme: the Neural Black theme tables and the console helpers

    A shallow embedding of [src/toolkit_theme.py].

    - A Python [str] is a [string] holding the UTF-8 bytes of the text, so
      concatenation and the emptiness test agree with Python's.
    - A [dict] with string keys is a [gmap string string]; a dict display
      is built by successive insertion, later entries overriding earlier
      ones.
    - The module globals live in the interpreter state [World]; the
      functions read them from there at call time, as Python does.
    - The console is the external renderer.  What the module does with it
      is recorded as the trace of [print] requests.  Whether a request is
      honoured is the renderer's business: it reads the text as console
      markup and then resolves the style name, and both are parameters. *)

From Stdlib Require Import Ascii String.
From stdpp Require Import gmap strings list fin_maps.

Open Scope string_scope.
Open Scope list_scope.

(** ** Strings *)

(** The escape [\n] of a Python literal. *)
Definition LF : string := String "010"%char EmptyString.

(** Truthiness of a [str]: [if body:] holds for every non-empty string. *)
Definition truthy (s : string) : bool :=
  match s with
  | EmptyString => false
  | String _ _ => true
  end.

(** ** Dictionaries *)

(** [{k1: v1, ..., kn: vn}]: entries are inserted left to right. *)
Definition dict_literal (items : list (string * string)) : gmap string string :=
  foldl (fun d kv => <[kv.1 := kv.2]> d) ∅ items.

(** [d.get(key, dflt)] *)
Definition dict_get (d : gmap string string) (key dflt : string) : string :=
  default dflt (d !! key).

(** ** The three tables *)

Definition toolkit_theme_items : list (string * string) :=
  [ (* Status indicators *)
    ("success", "bold #00FF88");
    ("warning", "bold #FFD166");
    ("error", "bold #FF5555");
    ("info", "bold #00AEEF");
    (* Contextual elements *)
    ("context", "#00AEEF");
    ("comment", "dim #7B7F8B");
    ("meta", "italic #7B7F8B");
    ("educational", "#B26FFF");
    (* Diff output *)
    ("diff.add", "black on #00FF88");
    ("diff.remove", "black on #FF4C6A");
    ("diff.context", "#E0E0E0");
    (* UI elements *)
    ("prompt", "bold #00AEEF");
    ("title", "bold #00AEEF");
    ("subtitle", "#7B7F8B");
    ("file", "#00AEEF");
    ("path", "#00FF88");
    (* Code syntax *)
    ("code.keyword", "#00AEEF");
    ("code.function", "#00FF88");
    ("code.string", "#FFD166");
    ("code.number", "#B26FFF");
    ("code.comment", "#7B7F8B");
    ("code.type", "#00AEEF");
    ("code.operator", "#00FF88");
    (* Progress and status *)
    ("progress.description", "#E0E0E0");
    ("progress.percentage", "#00FF88");
    ("progress.download", "#00AEEF");
    ("progress.remaining", "#7B7F8B");
    (* Tables *)
    ("table.header", "bold #00AEEF");
    ("table.border", "#3A3A3A");
    ("table.cell", "#E0E0E0");
    (* Special elements *)
    ("link", "underline #00FF88");
    ("highlight", "reverse #00FF88");
    ("emphasis", "#FFD166");
    ("strong", "bold #00FF88") ].

(** [toolkit_theme = Theme({...})]: the table of style definitions that
    the module passes to [Theme].  The default styles that a theme
    inherits from the console library are not part of it; they are
    among the names the renderer resolves by itself. *)
Definition toolkit_theme : gmap string string :=
  dict_literal toolkit_theme_items.

(** The glyphs are the byte sequences of the source file, which stores
    each emoji in doubly encoded form. *)
Definition STATUS_ICONS_items : list (string * string) :=
  [ ("success", "âœ…");
    ("warning", "âš ï¸");
    ("error", "âŒ");
    ("info", "ðŸ’¡");
    ("context", "ðŸ§©");
    ("learning", "ðŸ’¡");
    ("drift", "âš ï¸");
    ("ship", "ðŸš€");
    ("thought", "ðŸ§ ");
    ("lambda", "Î»") ].

Definition STATUS_ICONS : gmap string string :=
  dict_literal STATUS_ICONS_items.

Definition PROGRESS_BAR_STYLE_items : list (string * string) :=
  [ ("bar.complete", "#00FF88");
    ("bar.finished", "#00FF88");
    ("bar.pulse", "#00AEEF");
    ("progress.elapsed", "#7B7F8B") ].

Definition PROGRESS_BAR_STYLE : gmap string string :=
  dict_literal PROGRESS_BAR_STYLE_items.

(** ** Interpreter state *)

(** A console object: its identity and the two constructor arguments the
    module passes. *)
Record Console : Type := mkConsole {
  console_id : nat;
  console_theme : gmap string string;
  console_highlight : bool
}.

(** The configuration of a console, without its identity. *)
Definition console_config (c : Console) : gmap string string * bool :=
  (console_theme c, console_highlight c).

(** One [console.print(text, style=style)] request. *)
Record Call : Type := mkCall {
  call_console : Console;
  call_text : string;
  call_style : string
}.

Record World : Type := mkWorld {
  theme_tbl : gmap string string;      (* global toolkit_theme *)
  icon_tbl : gmap string string;       (* global STATUS_ICONS *)
  progress_tbl : gmap string string;   (* global PROGRESS_BAR_STYLE *)
  heap : list Console;                 (* consoles constructed so far *)
  trace : list Call                    (* print requests issued so far *)
}.

(** The state right after the module body has run. *)
Definition module_load : World :=
  {| theme_tbl := toolkit_theme;
     icon_tbl := STATUS_ICONS;
     progress_tbl := PROGRESS_BAR_STYLE;
     heap := [];
     trace := [] |}.

Definition tables (w : World) :
    gmap string string * gmap string string * gmap string string :=
  (theme_tbl w, icon_tbl w, progress_tbl w).

(** ** Computations *)

Inductive Exn : Type :=
  | MissingStyle (name : string)
  | MarkupError (text : string).

Inductive Outcome (A : Type) : Type :=
  | Return (a : A)
  | Raise (e : Exn).
Arguments Return {A} a.
Arguments Raise {A} e.

Definition Py (A : Type) : Type := World -> Outcome A * World.

Definition ret {A} (a : A) : Py A := fun w => (Return a, w).

Definition bind {A B} (m : Py A) (k : A -> Py B) : Py B :=
  fun w =>
    match m w with
    | (Return a, w') => k a w'
    | (Raise e, w') => (Raise e, w')
    end.

Definition global {A} (f : World -> A) : Py A := fun w => (Return (f w), w).

Notation "'call' x <~ m 'in' k" := (bind m (fun x => k))
  (at level 10, x name, m at level 100, k at level 200, only parsing).
Notation "'perform' m 'in' k" := (bind m (fun _ => k))
  (at level 10, m at level 100, k at level 200, only parsing).

Definition returns {A} (r : Outcome A * World) : bool :=
  match r.1 with
  | Return _ => true
  | Raise _ => false
  end.

(** The (text, style) pairs of a list of requests. *)
Definition pairs (cs : list Call) : list (string * string) :=
  map (fun c => (call_text c, call_style c)) cs.

(** The requests a computation issued when started in [w]. *)
Definition issued {A} (m : Py A) (w : World) : list Call :=
  drop (length (trace w)) (trace (m w).2).

Definition written {A} (m : Py A) (w : World) : list (string * string) :=
  pairs (issued m w).

(** ** The console *)

(** [Console(theme=theme, highlight=highlight)]: a new object, whose
    identity is its position in the heap. *)
Definition new_Console (theme : gmap string string) (highlight : bool) : Py Console :=
  fun w =>
    let c := {| console_id := length (heap w);
                console_theme := theme;
                console_highlight := highlight |} in
    (Return c,
     {| theme_tbl := theme_tbl w; icon_tbl := icon_tbl w;
        progress_tbl := progress_tbl w;
        heap := heap w ++ [c]; trace := trace w |}).

(** The console library is not part of the repository.  The model keeps
    of it what decides whether a [print] returns: how it reads the text
    and how it resolves the style name.  Failures of the output stream
    are outside the model. *)
Record Renderer : Type := mkRenderer {
  (* whether the renderer resolves by its own means a style name that the
     table passed to the console does not define: one of the default
     styles that every theme inherits, or a style definition that it can
     parse *)
  parse_style : string -> bool;
  (* whether the renderer accepts the closing tags of a text *)
  parse_markup : string -> bool
}.

(** The text of a request is console markup.  A closing tag starts with
    an opening bracket followed by a slash. *)
Fixpoint has_closing_tag (s : string) : bool :=
  match s with
  | EmptyString => false
  | String a rest =>
      (Ascii.eqb a "["%char
       && match rest with
          | String b _ => Ascii.eqb b "/"%char
          | EmptyString => false
          end)
      || has_closing_tag rest
  end.

Section Renderer.

Variable renderer : Renderer.

(** The renderer reads the text before it resolves the style; only a
    closing tag can be in error (one that closes nothing). *)
Definition render_markup (text : string) : Outcome unit :=
  if has_closing_tag text && negb (parse_markup renderer text)
  then Raise (MarkupError text)
  else Return tt.

(** Modelled from the spec: the console's [print(text, style=name)]
    "resolves [name] against the style table and writes"; a name the
    table does not define is left to "the external renderer's own
    default-handling" (its inherited default styles, or the name read as
    a style definition), and a failure of the console is "propagated
    unmodified to the caller". *)
Definition get_style (c : Console) (name : string) : Outcome unit :=
  match console_theme c !! name with
  | Some _ => Return tt
  | None => if parse_style renderer name then Return tt else Raise (MissingStyle name)
  end.

(** What [c.print(text, style=style)] comes to. *)
Definition print_outcome (c : Console) (text style : string) : Outcome unit :=
  match render_markup text with
  | Return _ => get_style c style
  | Raise e => Raise e
  end.

Definition console_print (c : Console) (text style : string) : Py unit :=
  fun w =>
    (print_outcome c text style,
     {| theme_tbl := theme_tbl w; icon_tbl := icon_tbl w;
        progress_tbl := progress_tbl w;
        heap := heap w;
        trace := trace w ++ [mkCall c text style] |}).

(** ** The module's functions *)

Definition get_console : Py Console :=
  call theme <~ global theme_tbl in
  new_Console theme false.

(** The lookup [STATUS_ICONS.get(status, "")] of [print_status]. *)
Definition resolve_icon (icons : gmap string string) (status : string) : string :=
  dict_get icons status "".

Definition print_status (message status : string) : Py unit :=
  call console <~ get_console in
  call icon <~ global (fun w => resolve_icon (icon_tbl w) status) in
  let style := status in
  console_print console (icon +:+ " " +:+ message) style.

Definition print_section (title body : string) : Py unit :=
  call console <~ get_console in
  perform console_print console (LF +:+ title) "title" in
  if truthy body then console_print console body "context" else ret tt.



(** ** Sequences of calls from a client *)

Inductive Op : Type :=
  | OpGetConsole
  | OpPrintStatus (message status : string)
  | OpPrintSection (title body : string).

(** A client that goes on after an error (its own [try]/[except]); a
    client that stops at the first error runs a prefix of the list. *)
Definition step (o : Op) (w : World) : World :=
  match o with
  | OpGetConsole => (get_console w).2
  | OpPrintStatus message status => (print_status message status w).2
  | OpPrintSection title body => (print_section title body w).2
  end.

Definition exec (ops : list Op) (w : World) : World :=
  foldl (fun w o => step o w) w ops.

Inductive reachable : World -> Prop :=
  | reachable_load : reachable module_load
  | reachable_step o w : reachable w -> reachable (step o w).

End Renderer.

(** Two renderers for concrete runs: one that accepts every style name
    and every closing tag, and one that fails on every name its theme
    does not define and on every closing tag. *)
Definition lenient : Renderer :=
  {| parse_style := fun _ => true; parse_markup := fun _ => true |}.
Definition fail_fast : Renderer :=
  {| parse_style := fun _ => false; parse_markup := fun _ => false |}.

(** ** Style definitions *)

Definition is_hex_digit (a : ascii) : bool :=
  let n := nat_of_ascii a in
  (Nat.leb 48 n && Nat.leb n 57) || (Nat.leb 65 n && Nat.leb n 70)
  || (Nat.leb 97 n && Nat.leb n 102).

(** A color token of the form [#rrggbb], the only form the tables use. *)
Definition is_hex_color (word : string) : bool :=
  match word with
  | String "#"%char digits =>
      Nat.eqb (String.length digits) 6 && forallb is_hex_digit (list_ascii_of_string digits)
  | _ => false
  end.

(** The words of a style definition, separated by spaces. *)
Fixpoint words_from (cur : string) (s : string) : list string :=
  match s with
  | EmptyString => [cur]
  | String a rest =>
      if Ascii.eqb a " "%char then cur :: words_from EmptyString rest
      else words_from (cur +:+ String a EmptyString) rest
  end.

Definition words (s : string) : list string := words_from EmptyString s.

Definition has_color_token (spec : string) : bool :=
  existsb is_hex_color (words spec).

(** The bytes of a string, as numbers. *)
Definition bytes (s : string) : list nat :=
  map nat_of_ascii (list_ascii_of_string s).

(** * Properties *)

(** ** Dictionaries *)

Lemma foldl_insert_lookup (items : list (string * string)) (d : gmap string string) k v :
  foldl (fun d kv => <[kv.1 := kv.2]> d) d items !! k = Some v ->
  (k, v) ∈ items \/ d !! k = Some v.
Proof.
  revert d. induction items as [|[k' v'] items IH]; intros d H; simpl in H.
  - by right.
  - destruct (IH _ H) as [Hin | Hd].
    + left. by apply elem_of_cons; right.
    + simpl in Hd. destruct (decide (k' = k)) as [->|Hne].
      * rewrite lookup_insert_eq in Hd. left. apply elem_of_cons; left. congruence.
      * rewrite lookup_insert_ne in Hd by done. by right.
Qed.

(** Every binding of a dict display is one of its entries. *)
Lemma dict_literal_lookup_elem items k v :
  dict_literal items !! k = Some v -> (k, v) ∈ items.
Proof.
  intros H. destruct (foldl_insert_lookup _ _ _ _ H) as [Hin | He]; [done|].
  by rewrite lookup_empty in He.
Qed.

(** The line feed is the byte 10. *)
Example LF_bytes : bytes LF = [10].
Proof. reflexivity. Qed.

(** The glyph bytes, pinned against the source file. *)
Example STATUS_ICONS_bytes :
  map (fun kv => (kv.1, bytes kv.2)) STATUS_ICONS_items =
  [ ("success", [195; 162; 197; 147; 226; 128; 166]);
    ("warning", [195; 162; 197; 161; 194; 160; 195; 175; 194; 184]);
    ("error", [195; 162; 197; 146]);
    ("info", [195; 176; 197; 184; 226; 128; 153; 194; 161]);
    ("context", [195; 176; 197; 184; 194; 167; 194; 169]);
    ("learning", [195; 176; 197; 184; 226; 128; 153; 194; 161]);
    ("drift", [195; 162; 197; 161; 194; 160; 195; 175; 194; 184]);
    ("ship", [195; 176; 197; 184; 197; 161; 226; 130; 172]);
    ("thought", [195; 176; 197; 184; 194; 167; 194; 160]);
    ("lambda", [195; 142; 194; 187]) ].
Proof. reflexivity. Qed.

(** No key is repeated in a table, so no entry overrides another. *)
Lemma tables_keys_NoDup :
  NoDup toolkit_theme_items.*1 /\ NoDup STATUS_ICONS_items.*1 /\
  NoDup PROGRESS_BAR_STYLE_items.*1.
Proof. repeat split; compute_done. Qed.

(** ** Frame properties of the operations *)

Section Frame.

Variable renderer : Renderer.

Lemma issued_app {A} (m : Py A) w cs :
  trace (m w).2 = trace w ++ cs -> issued m w = cs.
Proof. intros H. unfold issued. rewrite H. apply drop_app_length. Qed.

Lemma get_console_run w :
  get_console w =
    let c := mkConsole (length (heap w)) (theme_tbl w) false in
    (Return c,
     mkWorld (theme_tbl w) (icon_tbl w) (progress_tbl w) (heap w ++ [c]) (trace w)).
Proof. reflexivity. Qed.

Lemma print_status_run message status w :
  print_status renderer message status w =
    let c := mkConsole (length (heap w)) (theme_tbl w) false in
    (print_outcome renderer c (resolve_icon (icon_tbl w) status +:+ " " +:+ message) status,
     mkWorld (theme_tbl w) (icon_tbl w) (progress_tbl w) (heap w ++ [c])
       (trace w ++ [mkCall c (resolve_icon (icon_tbl w) status +:+ " " +:+ message) status])).
Proof. reflexivity. Qed.

Lemma tables_step o w : tables (step renderer o w) = tables w.
Proof.
  destruct o as [|message status|title body]; simpl.
  - reflexivity.
  - reflexivity.
  - unfold print_section, bind. simpl.
    destruct (print_outcome _ _ _ _); [|reflexivity].
    destruct (truthy body); reflexivity.
Qed.

Lemma tables_exec ops w : tables (exec renderer ops w) = tables w.
Proof.
  revert w. induction ops as [|o ops IH]; intros w; [done|].
  change (exec renderer (o :: ops) w)
    with (exec renderer ops (step renderer o w)).
  rewrite IH. apply tables_step.
Qed.

Lemma reachable_tables w :
  reachable renderer w -> tables w = tables module_load.
Proof.
  induction 1 as [|o w _ IH]; [done|]. by rewrite tables_step.
Qed.

Lemma reachable_theme w : reachable renderer w -> theme_tbl w = toolkit_theme.
Proof. intros H. apply reachable_tables in H. by inversion H. Qed.

Lemma reachable_icons w : reachable renderer w -> icon_tbl w = STATUS_ICONS.
Proof. intros H. apply reachable_tables in H. by inversion H. Qed.

Lemma reachable_exec ops w :
  reachable renderer w -> reachable renderer (exec renderer ops w).
Proof.
  revert w. induction ops as [|o ops IH]; intros w H; [done|].
  change (exec renderer (o :: ops) w)
    with (exec renderer ops (step renderer o w)).
  apply IH. by constructor.
Qed.

End Frame.

(** ** Lookups in the loaded tables *)

Lemma theme_title : toolkit_theme !! "title" = Some "bold #00AEEF".
Proof. vm_compute. reflexivity. Qed.


Lemma icon_success : STATUS_ICONS !! "success" = Some "âœ…".
Proof. vm_compute. reflexivity. Qed.

Section Helpers.

Variable renderer : Renderer.

(** A text without a closing tag is read without error. *)
Lemma render_markup_plain text :
  has_closing_tag text = false -> render_markup renderer text = Return tt.
Proof. intros H. unfold render_markup. by rewrite H. Qed.

(** With a style of the theme, a request fails only on its text. *)
Lemma print_outcome_styled c text style :
  is_Some (console_theme c !! style) ->
  print_outcome renderer c text style = render_markup renderer text.
Proof.
  intros [spec Hs]. unfold print_outcome, get_style. rewrite Hs.
  by destruct (render_markup renderer text) as [[]|e].
Qed.

Lemma print_section_run_gen title body w :
  print_section renderer title body w =
    let c := mkConsole (length (heap w)) (theme_tbl w) false in
    let W := mkWorld (theme_tbl w) (icon_tbl w) (progress_tbl w) (heap w ++ [c]) in
    let t1 := trace w ++ [mkCall c (LF +:+ title) "title"] in
    match print_outcome renderer c (LF +:+ title) "title" with
    | Raise e => (Raise e, W t1)
    | Return _ =>
        if truthy body
        then (print_outcome renderer c body "context", W (t1 ++ [mkCall c body "context"]))
        else (Return tt, W t1)
    end.
Proof.
  cbv beta iota zeta delta
    [print_section bind get_console global new_Console console_print ret
     theme_tbl icon_tbl progress_tbl heap trace].
  destruct (print_outcome _ _ _ _); [|reflexivity].
  destruct (truthy body); reflexivity.
Qed.


Lemma written_print_status message status w :
  written (print_status renderer message status) w =
    [(resolve_icon (icon_tbl w) status +:+ " " +:+ message, status)].
Proof.
  unfold written. erewrite issued_app; [|rewrite print_status_run; reflexivity].
  reflexivity.
Qed.

Lemma outcome_print_status message status w :
  (print_status renderer message status w).1 =
    print_outcome renderer (mkConsole (length (heap w)) (theme_tbl w) false)
      (resolve_icon (icon_tbl w) status +:+ " " +:+ message) status.
Proof. reflexivity. Qed.

(** A request fails whenever its style name cannot be resolved. *)
Lemma print_outcome_unresolved c text style :
  console_theme c !! style = None ->
  parse_style renderer style = false ->
  exists e, print_outcome renderer c text style = Raise e.
Proof.
  intros Ht Hp. unfold print_outcome, get_style. rewrite Ht, Hp.
  destruct (render_markup renderer text); by eexists.
Qed.

(** For a status kind of the icon table the text is the glyph, one
    space, and the message, and the style name is the status kind. *)
Lemma print_status_known_icon message status icon w :
  reachable renderer w ->
  STATUS_ICONS !! status = Some icon ->
  written (print_status renderer message status) w =
    [(icon +:+ " " +:+ message, status)].
Proof.
  intros Hw Hi. rewrite written_print_status, (reachable_icons _ _ Hw).
  unfold resolve_icon, dict_get. by rewrite Hi.
Qed.

End Helpers.

(** ** print_status *)

(** C1 (as amended).  For a status kind that is in neither the icon table
    nor the style table, [print_status] hands the console exactly one
    print request: the text is one space followed by the message (empty
    icon, leading space kept) and the style name is the status kind.  The
    icon lookup does not raise, but the call returns normally only if the
    console can resolve the undefined style name by itself; otherwise
    the console's error reaches the caller. *)
Theorem print_status_unknown_status
    (renderer : Renderer) (w : World) (message status : string) :
  reachable renderer w ->
  STATUS_ICONS !! status = None ->
  toolkit_theme !! status = None ->
  written (print_status renderer message status) w = [(" " +:+ message, status)] /\
  (returns (print_status renderer message status w) = true ->
   parse_style renderer status = true).
Proof.
  intros Hw Hi Ht. split.
  - rewrite written_print_status, (reachable_icons _ _ Hw).
    unfold resolve_icon, dict_get. by rewrite Hi.
  - unfold returns. rewrite outcome_print_status.
    destruct (parse_style renderer status) eqn:Hp; [done|].
    destruct (print_outcome_unresolved renderer
                (mkConsole (length (heap w)) (theme_tbl w) false)
                (resolve_icon (icon_tbl w) status +:+ " " +:+ message) status)
      as [e ->]; [|done|done].
    cbn [console_theme]. by rewrite (reachable_theme _ _ Hw).
Qed.

Lemma print_status_unknown_status_witness :
  written (print_status lenient "Unknown thing" "nonexistent_status") module_load
    = [(" Unknown thing", "nonexistent_status")] /\
  (returns (print_status lenient "Unknown thing" "nonexistent_status" module_load) = true ->
   parse_style lenient "nonexistent_status" = true).
Proof.
  apply (print_status_unknown_status lenient module_load
           "Unknown thing" "nonexistent_status").
  - apply reachable_load.
  - vm_compute. reflexivity.
  - vm_compute. reflexivity.
Defined.

(** C1 as stated fails: with a renderer that rejects the names its theme
    does not define, the request is issued and the call raises. *)
Lemma print_status_unknown_status_raises :
  STATUS_ICONS !! "nonexistent_status" = None /\
  toolkit_theme !! "nonexistent_status" = None /\
  written (print_status fail_fast "Unknown thing" "nonexistent_status") module_load
    = [(" Unknown thing", "nonexistent_status")] /\
  (print_status fail_fast "Unknown thing" "nonexistent_status" module_load).1
    = Raise (MissingStyle "nonexistent_status") /\
  returns (print_status fail_fast "Unknown thing" "nonexistent_status" module_load) = false.
Proof. repeat split; vm_compute; reflexivity. Qed.

(** C2.  At the status kind "success" the glyph of the table is the byte
    sequence C3 A2 C5 93 E2 80 A6, not the check mark E2 9C 85: the text
    handed to the console is that glyph, a space and the message, styled
    "success", and it differs from the text headed by the check mark. *)
Theorem print_status_success_glyph (renderer : Renderer) :
  written (print_status renderer "Phase 3 Complete" "success") module_load
    = [("âœ… Phase 3 Complete", "success")] /\
  bytes "âœ…" = [195; 162; 197; 147; 226; 128; 166] /\
  bytes "✅" = [226; 156; 133] /\
  written (print_status renderer "Phase 3 Complete" "success") module_load
    <> [("✅ Phase 3 Complete", "success")].
Proof.
  rewrite (print_status_known_icon renderer _ _ _ _ (reachable_load _) icon_success).
  repeat split; try reflexivity. discriminate.
Qed.

(** ** print_section *)




(** ** The icon lookup *)

(** C4.  For a key of the icon table [resolve_icon] yields the glyph the
    table lists for it; for any other key it yields the empty string.
    The lookup is a total function: it has no failing case. *)
Theorem resolve_icon_spec (key : string) :
  (forall glyph, STATUS_ICONS !! key = Some glyph ->
     resolve_icon STATUS_ICONS key = glyph /\ (key, glyph) ∈ STATUS_ICONS_items) /\
  (forall glyph, (key, glyph) ∈ STATUS_ICONS_items ->
     resolve_icon STATUS_ICONS key = glyph) /\
  (STATUS_ICONS !! key = None -> resolve_icon STATUS_ICONS key = "").
Proof.
  unfold resolve_icon, dict_get. split; [|split].
  - intros glyph H. rewrite H. split; [done|]. by apply dict_literal_lookup_elem.
  - intros glyph H. unfold STATUS_ICONS_items in H.
    repeat (apply elem_of_cons in H as [H|H];
            [injection H as -> ->; vm_compute; reflexivity|]).
    by apply elem_of_nil in H.
  - intros H. by rewrite H.
Qed.

Lemma resolve_icon_spec_witness :
  resolve_icon STATUS_ICONS "success" = "âœ…" /\
  resolve_icon STATUS_ICONS "nonexistent_status" = "".
Proof.
  split.
  - apply (proj1 (resolve_icon_spec "success")). vm_compute. reflexivity.
  - apply (proj2 (proj2 (resolve_icon_spec "nonexistent_status"))).
    vm_compute. reflexivity.
Defined.

(** C7.  The keys "warning" and "drift" are both in the icon table and
    are mapped to the same glyph. *)
Theorem warning_drift_same_glyph :
  is_Some (STATUS_ICONS !! "warning") /\
  STATUS_ICONS !! "warning" = STATUS_ICONS !! "drift" /\
  resolve_icon STATUS_ICONS "warning" = resolve_icon STATUS_ICONS "drift".
Proof.
  split; [|split].
  - vm_compute. eexists. reflexivity.
  - vm_compute. reflexivity.
  - vm_compute. reflexivity.
Qed.

(** ** The style table *)

(** C6.  Every style definition of the style table is non-empty and
    contains a color token. *)
Theorem toolkit_theme_styles_have_color (key spec : string) :
  toolkit_theme !! key = Some spec ->
  spec <> "" /\ has_color_token spec = true.
Proof.
  intros H. apply dict_literal_lookup_elem in H.
  assert (Hall : Forall (fun kv => kv.2 <> "" /\ has_color_token kv.2 = true)
                   toolkit_theme_items).
  { unfold toolkit_theme_items.
    repeat (apply Forall_cons; split; [split; [discriminate | vm_compute; reflexivity]|]).
    apply Forall_nil_2. }
  rewrite Forall_forall in Hall. exact (Hall _ H).
Qed.

Lemma toolkit_theme_styles_have_color_witness :
  "black on #00FF88" <> "" /\ has_color_token "black on #00FF88" = true.
Proof.
  apply (toolkit_theme_styles_have_color "diff.add" "black on #00FF88").
  vm_compute. reflexivity.
Defined.

Example has_color_token_examples :
  has_color_token "bold" = false /\ has_color_token "#00FF8" = false /\
  has_color_token "bold #00GG88" = false /\ has_color_token "black on #FF4C6A" = true.
Proof. repeat split. Qed.

(** ** Consoles *)

Section Consoles.

Variable renderer : Renderer.

(** Every operation constructs exactly one console, from the theme
    table, with highlighting off. *)
Lemma heap_step o w :
  heap (step renderer o w) =
    heap w ++ [mkConsole (length (heap w)) (theme_tbl w) false].
Proof.
  destruct o as [|message status|title body]; simpl.
  - reflexivity.
  - reflexivity.
  - rewrite print_section_run_gen. simpl.
    destruct (print_outcome _ _ _ _); [|reflexivity].
    destruct (truthy body); reflexivity.
Qed.

Lemma heap_length_exec ops w :
  length (heap (exec renderer ops w)) = length (heap w) + length ops.
Proof.
  revert w. induction ops as [|o ops IH]; intros w; [simpl; lia|].
  change (exec renderer (o :: ops) w)
    with (exec renderer ops (step renderer o w)).
  rewrite IH, heap_step, length_app. simpl. lia.
Qed.

(** The identity of a console is its position in the heap. *)
Lemma heap_ids w :
  reachable renderer w ->
  forall i c, heap w !! i = Some c -> console_id c = i.
Proof.
  induction 1 as [|o w _ IH]; intros i c Hi.
  - change (heap module_load) with (@nil Console) in Hi.
    by rewrite lookup_nil in Hi.
  - rewrite heap_step in Hi. apply lookup_app_Some in Hi as [Hi | [Hge Hi]].
    + by apply IH.
    + apply list_lookup_singleton_Some in Hi as [Hz <-]. simpl. lia.
Qed.

Lemma heap_ids_below w c :
  reachable renderer w -> c ∈ heap w -> console_id c < length (heap w).
Proof.
  intros Hw Hc. apply list_elem_of_lookup in Hc as [i Hi].
  rewrite (heap_ids w Hw i c Hi). by apply lookup_lt_Some in Hi.
Qed.

End Consoles.

(** C5.  A call of [get_console] returns a console that is none of the
    consoles constructed before, and a later call, after any operations
    in between, returns yet another one; every console returned has the
    style table as theme and highlighting disabled. *)
Theorem get_console_fresh_and_uniform
    (renderer : Renderer) (w : World) (ops : list Op) :
  reachable renderer w ->
  exists c1 c2,
    (get_console w).1 = Return c1 /\
    (get_console (exec renderer ops (get_console w).2)).1 = Return c2 /\
    Forall (fun c => console_id c <> console_id c1) (heap w) /\
    c1 ∈ heap (get_console w).2 /\
    console_id c1 <> console_id c2 /\
    console_config c1 = (toolkit_theme, false) /\
    console_config c2 = (toolkit_theme, false).
Proof.
  intros Hw.
  set (w1 := (get_console w).2).
  assert (Hw1 : reachable renderer w1) by apply (reachable_step _ OpGetConsole _ Hw).
  set (w2 := exec renderer ops w1).
  assert (Hw2 : reachable renderer w2) by by apply reachable_exec.
  exists (mkConsole (length (heap w)) (theme_tbl w) false),
         (mkConsole (length (heap w2)) (theme_tbl w2) false).
  split; [reflexivity|]. split; [reflexivity|]. split; [|split; [|split; [|split]]].
  - apply Forall_forall. intros c Hc. simpl.
    pose proof (heap_ids_below _ _ _ Hw Hc). lia.
  - subst w1. rewrite get_console_run. simpl. apply elem_of_app. right.
    apply list_elem_of_singleton. reflexivity.
  - simpl. subst w2. rewrite heap_length_exec. subst w1.
    rewrite get_console_run. simpl. rewrite length_app. simpl. lia.
  - unfold console_config. simpl. by rewrite (reachable_theme _ _ Hw).
  - unfold console_config. simpl. by rewrite (reachable_theme _ _ Hw2).
Qed.

Lemma get_console_fresh_and_uniform_witness :
  exists c1 c2,
    (get_console module_load).1 = Return c1 /\
    (get_console (exec fail_fast [OpPrintSection "Title" "Body text"]
                    (get_console module_load).2)).1 = Return c2 /\
    Forall (fun c => console_id c <> console_id c1) (heap module_load) /\
    c1 ∈ heap (get_console module_load).2 /\
    console_id c1 <> console_id c2 /\
    console_config c1 = (toolkit_theme, false) /\
    console_config c2 = (toolkit_theme, false).
Proof.
  apply (get_console_fresh_and_uniform fail_fast module_load
           [OpPrintSection "Title" "Body text"]).
  apply reachable_load.
Defined.

(** ** The tables are constant *)

(** C8.  The three tables have their load-time value after any sequence
    of calls of [get_console], [print_status] and [print_section]; from
    any state, no such sequence changes them. *)
Theorem tables_never_mutated (renderer : Renderer) (ops : list Op) :
  tables (exec renderer ops module_load)
    = (toolkit_theme, STATUS_ICONS, PROGRESS_BAR_STYLE) /\
  forall w, tables (exec renderer ops w) = tables w.
Proof.
  split.
  - by rewrite tables_exec.
  - intros w. apply tables_exec.
Qed.

(** ** Status kinds without a style *)

(** The keys of the icon table that the style table lacks, in the order
    of the icon table. *)
Definition unstyled_status_kinds : list string :=
  (filter (fun kv => toolkit_theme !! kv.1 = None) STATUS_ICONS_items).*1.

Lemma unstyled_status_kinds_eq :
  unstyled_status_kinds = ["learning"; "drift"; "ship"; "thought"; "lambda"].
Proof. vm_compute. reflexivity. Qed.

(** C9.  Each of "learning", "drift", "ship", "thought" and "lambda" is a
    key of the icon table with a non-empty glyph and is not a key of the
    style table; [print_status] with such a status kind hands the console
    the glyph, a space and the message under a style name that the
    console's theme does not define. *)
Theorem print_status_icon_without_style
    (renderer : Renderer) (w : World) (message status : string) :
  reachable renderer w ->
  status ∈ ["learning"; "drift"; "ship"; "thought"; "lambda"] ->
  exists icon c,
    STATUS_ICONS !! status = Some icon /\
    icon <> "" /\
    toolkit_theme !! status = None /\
    issued (print_status renderer message status) w
      = [mkCall c (icon +:+ " " +:+ message) status] /\
    console_theme c !! status = None.
Proof.
  intros Hw Hs.
  assert (Hk : exists icon, STATUS_ICONS !! status = Some icon /\ icon <> "" /\
                            toolkit_theme !! status = None).
  { repeat (apply elem_of_cons in Hs as [->|Hs];
            [eexists; split; [vm_compute; reflexivity|];
             split; [discriminate | vm_compute; reflexivity]|]).
    by apply elem_of_nil in Hs. }
  destruct Hk as (icon & Hi & Hne & Ht).
  exists icon, (mkConsole (length (heap w)) (theme_tbl w) false).
  split; [done|]. split; [done|]. split; [done|]. split.
  - erewrite issued_app; [|rewrite print_status_run; reflexivity].
    rewrite (reachable_icons _ _ Hw). unfold resolve_icon, dict_get. by rewrite Hi.
  - simpl. by rewrite (reachable_theme _ _ Hw).
Qed.

Lemma print_status_icon_without_style_witness :
  exists icon c,
    STATUS_ICONS !! "ship" = Some icon /\
    icon <> "" /\
    toolkit_theme !! "ship" = None /\
    issued (print_status fail_fast "Theme loaded successfully" "ship") module_load
      = [mkCall c (icon +:+ " " +:+ "Theme loaded successfully") "ship"] /\
    console_theme c !! "ship" = None.
Proof.
  apply (print_status_icon_without_style fail_fast module_load
           "Theme loaded successfully" "ship").
  - apply reachable_load.
  - do 2 apply list_elem_of_further. apply list_elem_of_here.
Defined.

(** ** Determinism *)

Section Determinism.

Variable renderer : Renderer.

Lemma get_style_theme c1 c2 name :
  console_theme c1 = console_theme c2 ->
  get_style renderer c1 name = get_style renderer c2 name.
Proof. intros H. unfold get_style. by rewrite H. Qed.

(** The outcome of a request does not depend on which console of a given
    theme receives it. *)
Lemma print_outcome_theme c1 c2 text name :
  console_theme c1 = console_theme c2 ->
  print_outcome renderer c1 text name = print_outcome renderer c2 text name.
Proof. intros H. unfold print_outcome. by rewrite (get_style_theme c1 c2 name H). Qed.

Lemma print_section_congr title body w1 w2 :
  theme_tbl w1 = theme_tbl w2 ->
  written (print_section renderer title body) w1
    = written (print_section renderer title body) w2 /\
  (print_section renderer title body w1).1
    = (print_section renderer title body w2).1.
Proof.
  intros Hth. unfold written, issued.
  rewrite !print_section_run_gen.
  set (c1 := mkConsole (length (heap w1)) (theme_tbl w1) false).
  set (c2 := mkConsole (length (heap w2)) (theme_tbl w2) false).
  assert (Hc : console_theme c1 = console_theme c2) by exact Hth.
  cbv zeta.
  rewrite !(print_outcome_theme c1 c2 _ _ Hc).
  destruct (print_outcome renderer c2 (LF +:+ title) "title").
  - destruct (truthy body); simpl.
    + rewrite <- !app_assoc, !drop_app_length. done.
    + rewrite !drop_app_length. done.
  - simpl. rewrite !drop_app_length. done.
Qed.

End Determinism.

(** C10.  The (text, style) pairs handed to the console by [print_status]
    and by [print_section], and the outcome of the call, are the same in
    any two states that agree on the tables: they are a function of the
    arguments and of the tables alone. *)
Theorem helpers_deterministic
    (renderer : Renderer) (w1 w2 : World)
    (message status title body : string) :
  tables w1 = tables w2 ->
  written (print_status renderer message status) w1
    = written (print_status renderer message status) w2 /\
  (print_status renderer message status w1).1
    = (print_status renderer message status w2).1 /\
  written (print_section renderer title body) w1
    = written (print_section renderer title body) w2 /\
  (print_section renderer title body w1).1
    = (print_section renderer title body w2).1.
Proof.
  intros Ht. injection Ht as Hth Hic _.
  split; [|split].
  - rewrite !written_print_status. by rewrite Hic.
  - rewrite !outcome_print_status, Hic. apply print_outcome_theme. exact Hth.
  - by apply print_section_congr.
Qed.

Lemma helpers_deterministic_witness :
  let w1 := module_load in
  let w2 := exec fail_fast [OpPrintStatus "Unknown thing" "nonexistent_status";
                            OpGetConsole] module_load in
  written (print_status fail_fast "Phase 3 Complete" "success") w1
    = written (print_status fail_fast "Phase 3 Complete" "success") w2 /\
  (print_status fail_fast "Phase 3 Complete" "success" w1).1
    = (print_status fail_fast "Phase 3 Complete" "success" w2).1 /\
  written (print_section fail_fast "Title" "Body text") w1
    = written (print_section fail_fast "Title" "Body text") w2 /\
  (print_section fail_fast "Title" "Body text" w1).1
    = (print_section fail_fast "Title" "Body text" w2).1.
Proof.
  intros w1 w2.
  apply (helpers_deterministic fail_fast w1 w2
           "Phase 3 Complete" "success" "Title" "Body text").
  reflexivity.
Defined.

(** * The rest of the module *)

(** ** The demonstration script *)

(** The double quote inside a Python literal. *)
Definition DQ : string := String "034"%char EmptyString.

Example DQ_bytes : bytes DQ = [34].
Proof. reflexivity. Qed.

Section Demo.

Variable renderer : Renderer.

(** The body of [if __name__ == "__main__":], run after the module has
    been loaded. *)
Definition main : Py unit :=
  call console <~ get_console in
  perform console_print renderer console
    (LF +:+ "ðŸ§  Neural Black Theme Demo" +:+ LF) "title" in
  perform console_print renderer console
    ("âœ… Phase 3 Complete") "success" in
  perform console_print renderer console
    ("âš ï¸ Spec alignment drift detected") "warning" in
  perform console_print renderer console
    ("âŒ Test failed with 3 errors") "error" in
  perform console_print renderer console
    ("ðŸ’¡ Context refresh recommended") "info" in
  perform console_print renderer console
    (LF +:+ "Diff Example:") "subtitle" in
  perform console_print renderer console
    ("- Old value removed") "diff.remove" in
  perform console_print renderer console
    ("+ New value added") "diff.add" in
  perform console_print renderer console
    (LF +:+ "Code Example:") "subtitle" in
  perform console_print renderer console
    ("def process_data(items: List[str]) -> Dict:") "code.function" in
  perform console_print renderer console
    ("    # Process the items") "code.comment" in
  perform console_print renderer console
    ("    return {" +:+ DQ +:+ "status" +:+ DQ +:+ ": " +:+ DQ +:+ "success" +:+ DQ +:+ "}") "code.keyword" in
  console_print renderer console
    (LF +:+ "ðŸš€ Theme loaded successfully" +:+ LF) "success".

(** The texts and style names of the script, in order. *)
Definition demo_lines : list (string * string) :=
  [
    (LF +:+ "ðŸ§  Neural Black Theme Demo" +:+ LF, "title");
    ("âœ… Phase 3 Complete", "success");
    ("âš ï¸ Spec alignment drift detected", "warning");
    ("âŒ Test failed with 3 errors", "error");
    ("ðŸ’¡ Context refresh recommended", "info");
    (LF +:+ "Diff Example:", "subtitle");
    ("- Old value removed", "diff.remove");
    ("+ New value added", "diff.add");
    (LF +:+ "Code Example:", "subtitle");
    ("def process_data(items: List[str]) -> Dict:", "code.function");
    ("    # Process the items", "code.comment");
    ("    return {" +:+ DQ +:+ "status" +:+ DQ +:+ ": " +:+ DQ +:+ "success" +:+ DQ +:+ "}", "code.keyword");
    (LF +:+ "ðŸš€ Theme loaded successfully" +:+ LF, "success") ].

(** Printing a list of lines on one console, stopping at the first
    error. *)
Fixpoint print_all (c : Console) (lines : list (string * string)) : Py unit :=
  match lines with
  | [] => ret tt
  | [l] => console_print renderer c l.1 l.2
  | l :: rest => perform console_print renderer c l.1 l.2 in print_all c rest
  end.

Lemma main_print_all : main = bind get_console (fun c => print_all c demo_lines).
Proof. reflexivity. Qed.

End Demo.

(** ** Printing a list of lines *)

Section DemoFacts.

Variable renderer : Renderer.

Lemma console_print_ok c text style w :
  has_closing_tag text = false /\ is_Some (console_theme c !! style) ->
  console_print renderer c text style w =
    (Return tt,
     mkWorld (theme_tbl w) (icon_tbl w) (progress_tbl w) (heap w)
       (trace w ++ [mkCall c text style])).
Proof.
  intros [Hm Hs]. unfold console_print.
  by rewrite (print_outcome_styled _ _ _ _ Hs), (render_markup_plain _ _ Hm).
Qed.

Lemma print_all_ok c lines w :
  Forall (fun l => has_closing_tag l.1 = false /\ is_Some (console_theme c !! l.2))
    lines ->
  print_all renderer c lines w =
    (Return tt,
     mkWorld (theme_tbl w) (icon_tbl w) (progress_tbl w) (heap w)
       (trace w ++ map (fun l => mkCall c l.1 l.2) lines)).
Proof.
  revert w. induction lines as [|l lines IH]; intros w Hall.
  - simpl. rewrite app_nil_r. by destruct w.
  - apply Forall_cons in Hall as [Hl Hall].
    destruct lines as [|l' lines].
    + simpl. by apply console_print_ok.
    + change (print_all renderer c (l :: l' :: lines) w)
        with (bind (console_print renderer c l.1 l.2)
                (fun _ => print_all renderer c (l' :: lines)) w).
      unfold bind. rewrite (console_print_ok _ _ _ _ Hl).
      rewrite (IH _ Hall). cbn [theme_tbl icon_tbl progress_tbl heap trace].
      by rewrite <- app_assoc.
Qed.

Lemma pairs_mkCall c (lines : list (string * string)) :
  pairs (map (fun l => mkCall c l.1 l.2) lines) = lines.
Proof.
  induction lines as [|[t st] lines IH]; [done|]. simpl. by rewrite IH.
Qed.

(** No text of the script has a closing tag, and every style name it
    uses is a key of the style table. *)
Lemma demo_styles_in_theme :
  Forall (fun l : string * string =>
            has_closing_tag l.1 = false /\ is_Some (toolkit_theme !! l.2))
    demo_lines.
Proof.
  unfold demo_lines.
  repeat (apply Forall_cons; split;
          [split; [reflexivity | vm_compute; eexists; reflexivity]|]).
  apply Forall_nil_2.
Qed.

Lemma main_run w :
  theme_tbl w = toolkit_theme ->
  main renderer w =
    let c := mkConsole (length (heap w)) (theme_tbl w) false in
    (Return tt,
     mkWorld (theme_tbl w) (icon_tbl w) (progress_tbl w) (heap w ++ [c])
       (trace w ++ map (fun l => mkCall c l.1 l.2) demo_lines)).
Proof.
  intros Hth. rewrite main_print_all. unfold bind. rewrite get_console_run.
  cbv beta iota zeta. rewrite print_all_ok.
  - reflexivity.
  - cbn [console_theme]. rewrite Hth. apply demo_styles_in_theme.
Qed.

Lemma written_main w :
  theme_tbl w = toolkit_theme -> written (main renderer) w = demo_lines.
Proof.
  intros Hth. unfold written.
  rewrite (issued_app _ _ _ (f_equal (fun r => trace r.2) (main_run w Hth))).
  apply pairs_mkCall.
Qed.


End DemoFacts.

(** X1.  Run in any state the three operations can reach, the
    demonstration script constructs one console, none of those
    constructed before, hands it thirteen print requests, all on that
    console, and returns whatever the renderer does with undefined style
    names: every style name the script uses is a key of the style
    table. *)
Theorem main_runs (renderer : Renderer) (w : World) :
  reachable renderer w ->
  returns (main renderer w) = true /\
  written (main renderer) w = demo_lines /\
  length (issued (main renderer) w) = 13 /\
  exists c,
    heap (main renderer w).2 = heap w ++ [c] /\
    (c ∉ heap w) /\
    Forall (fun rq => call_console rq = c) (issued (main renderer) w).
Proof.
  intros Hw. pose proof (reachable_theme _ _ Hw) as Hth.
  pose proof (main_run renderer w Hth) as Hrun. cbv zeta in Hrun.
  assert (Hiss : issued (main renderer) w =
            map (fun l => mkCall (mkConsole (length (heap w)) (theme_tbl w) false) l.1 l.2)
              demo_lines).
  { apply issued_app. by rewrite Hrun. }
  split; [unfold returns; rewrite Hrun; reflexivity|].
  split.
  { unfold written. rewrite Hiss. apply pairs_mkCall. }
  split; [rewrite Hiss, length_map; reflexivity|].
  exists (mkConsole (length (heap w)) (theme_tbl w) false).
  split; [by rewrite Hrun|]. split.
  - intros Hin. pose proof (heap_ids_below _ _ _ Hw Hin) as Hlt. simpl in Hlt. lia.
  - rewrite Hiss. apply Forall_forall. intros rq Hc.
    apply list_elem_of_fmap in Hc as (l & -> & _). reflexivity.
Qed.

Lemma main_runs_witness :
  returns (main fail_fast module_load) = true /\
  written (main fail_fast) module_load = demo_lines.
Proof.
  destruct (main_runs fail_fast module_load) as (Hr & Hw & _).
  - apply reachable_load.
  - split; [exact Hr | exact Hw].
Defined.

(** X2.  The four status lines of the demonstration script are written
    out by hand; they are exactly what [print_status] issues for the same
    messages with the status kinds "success", "warning", "error" and
    "info". *)
Theorem main_status_lines_agree (renderer : Renderer) (w : World) :
  reachable renderer w ->
  take 4 (drop 1 (written (main renderer) w)) =
    written (print_status renderer "Phase 3 Complete" "success") w ++
    written (print_status renderer "Spec alignment drift detected" "warning") w ++
    written (print_status renderer "Test failed with 3 errors" "error") w ++
    written (print_status renderer "Context refresh recommended" "info") w.
Proof.
  intros Hw. rewrite (written_main _ _ (reachable_theme _ _ Hw)).
  rewrite !written_print_status, (reachable_icons _ _ Hw).
  vm_compute. reflexivity.
Qed.

Lemma main_status_lines_agree_witness :
  take 4 (drop 1 (written (main lenient) module_load)) =
    written (print_status lenient "Phase 3 Complete" "success") module_load ++
    written (print_status lenient "Spec alignment drift detected" "warning") module_load ++
    written (print_status lenient "Test failed with 3 errors" "error") module_load ++
    written (print_status lenient "Context refresh recommended" "info") module_load.
Proof.
  apply (main_status_lines_agree lenient module_load). apply reachable_load.
Defined.

(** ** When print_status fails *)

(** X3.  If the status kind is not a key of the style table and the
    renderer cannot resolve it by itself, [print_status] hands over its
    one request and then fails, whatever the message and whether or not
    the status kind has an icon. *)
Theorem print_status_unresolved_fails
    (renderer : Renderer) (w : World) (message status : string) :
  reachable renderer w ->
  toolkit_theme !! status = None ->
  parse_style renderer status = false ->
  written (print_status renderer message status) w
    = [(resolve_icon STATUS_ICONS status +:+ " " +:+ message, status)] /\
  returns (print_status renderer message status w) = false.
Proof.
  intros Hw Ht Hp. split.
  - by rewrite written_print_status, (reachable_icons _ _ Hw).
  - unfold returns. rewrite outcome_print_status.
    destruct (print_outcome_unresolved renderer
                (mkConsole (length (heap w)) (theme_tbl w) false)
                (resolve_icon (icon_tbl w) status +:+ " " +:+ message) status)
      as [e ->]; [|done|done].
    cbn [console_theme]. by rewrite (reachable_theme _ _ Hw).
Qed.

Lemma print_status_unresolved_fails_witness :
  written (print_status fail_fast "Spec alignment drift detected" "drift") module_load
    = [(resolve_icon STATUS_ICONS "drift" +:+ " " +:+ "Spec alignment drift detected",
        "drift")] /\
  returns (print_status fail_fast "Spec alignment drift detected" "drift" module_load)
    = false.
Proof.
  apply (print_status_unresolved_fails fail_fast module_load
           "Spec alignment drift detected" "drift").
  - apply reachable_load.
  - vm_compute. reflexivity.
  - reflexivity.
Defined.

(** X4.  The status kinds that have both an icon and a style are exactly
    "success", "warning", "error", "info" and "context". *)
Theorem icon_and_style_keys (status : string) :
  is_Some (STATUS_ICONS !! status) /\ is_Some (toolkit_theme !! status) <->
  status ∈ ["success"; "warning"; "error"; "info"; "context"].
Proof.
  split.
  - intros [[icon Hi] [spec Ht]]. apply dict_literal_lookup_elem in Hi.
    unfold STATUS_ICONS_items in Hi.
    repeat (apply elem_of_cons in Hi as [Hi|Hi];
            [injection Hi as -> ->;
             first [ by repeat (first [apply list_elem_of_here | apply list_elem_of_further])
                   | vm_compute in Ht; discriminate ] |]).
    by apply elem_of_nil in Hi.
  - intros Hs.
    repeat (apply elem_of_cons in Hs as [->|Hs];
            [split; vm_compute; eexists; reflexivity|]).
    by apply elem_of_nil in Hs.
Qed.

Lemma icon_and_style_keys_witness :
  is_Some (STATUS_ICONS !! "context") /\ is_Some (toolkit_theme !! "context").
Proof.
  apply (icon_and_style_keys "context").
  do 4 apply list_elem_of_further. apply list_elem_of_here.
Defined.





(** ** The text of a status line *)

Lemma length_append (s1 s2 : string) :
  String.length (s1 +:+ s2) = String.length s1 + String.length s2.
Proof. induction s1 as [|a s1 IH]; simpl; [done | by rewrite IH]. Qed.

Lemma append_inj_r (s t1 t2 : string) : s +:+ t1 = s +:+ t2 -> t1 = t2.
Proof.
  induction s as [|a s IH]; simpl; [done|]. intros H. injection H as H. by apply IH.
Qed.

(** X6.  In every state and for all arguments [print_status] issues
    exactly one request.  Its text is never empty, not even for an empty
    message and an unknown status kind; its length is that of the icon
    plus one plus that of the message; and the message can be read back
    from it: for one status kind, different messages give different
    texts. *)
Theorem print_status_text_shape
    (renderer : Renderer) (w : World) (message status : string) :
  exists text,
    written (print_status renderer message status) w = [(text, status)] /\
    text <> "" /\
    String.length text =
      String.length (resolve_icon (icon_tbl w) status) + 1 + String.length message /\
    forall message',
      written (print_status renderer message' status) w = [(text, status)] ->
      message' = message.
Proof.
  exists (resolve_icon (icon_tbl w) status +:+ " " +:+ message).
  split; [apply written_print_status|]. split; [|split].
  - intros H. apply (f_equal String.length) in H.
    rewrite !length_append in H. simpl in H. lia.
  - rewrite !length_append. simpl. lia.
  - intros message' H. rewrite written_print_status in H.
    injection H as H. apply append_inj_r in H. by injection H.
Qed.

(** ** Default arguments *)



(** ** The trace of requests *)

(** The number of print requests an operation issues when no request
    fails. *)
Definition requests_of (o : Op) : nat :=
  match o with
  | OpGetConsole => 0
  | OpPrintStatus _ _ => 1
  | OpPrintSection _ body => if truthy body then 2 else 1
  end.

(** Whether the title line of an operation has no closing tag. *)
Definition plain_title (o : Op) : bool :=
  match o with
  | OpPrintSection title _ => negb (has_closing_tag title)
  | _ => true
  end.

Section Trace.

Variable renderer : Renderer.

(** What one operation does to the state: one more console, and its
    requests, all on that console, appended to the trace. *)
Lemma step_effect o w :
  exists cs,
    heap (step renderer o w) =
      heap w ++ [mkConsole (length (heap w)) (theme_tbl w) false] /\
    trace (step renderer o w) = trace w ++ cs /\
    length cs <= requests_of o /\
    (theme_tbl w = toolkit_theme -> plain_title o = true ->
     length cs = requests_of o) /\
    Forall (fun rq => call_console rq = mkConsole (length (heap w)) (theme_tbl w) false) cs.
Proof.
  destruct o as [|message status|title body]; simpl.
  - exists []. rewrite app_nil_r. repeat split; auto.
  - eexists [_]. repeat split; auto.
  - rewrite print_section_run_gen. cbv zeta.
    destruct (print_outcome renderer _ (LF +:+ title) "title") eqn:Ho;
      [destruct (truthy body)|].
    + eexists [_; _]. cbn [snd heap trace]. rewrite <- app_assoc.
      repeat split; simpl; auto; done.
    + eexists [_]. repeat split; simpl; auto; done.
    + eexists [_]. cbn [snd heap trace]. split; [done|]. split; [done|].
      split; [destruct (truthy body); simpl; lia|]. split; [|by repeat constructor].
      intros Hth Hp. exfalso. rewrite print_outcome_styled in Ho.
      * rewrite render_markup_plain in Ho; [done|].
        apply negb_true_iff in Hp. change (has_closing_tag title = false). exact Hp.
      * cbn [console_theme]. rewrite Hth, theme_title. by eexists.
Qed.




(** Every request in the trace was made on a console of the heap. *)
Lemma trace_consoles_in_heap w :
  reachable renderer w ->
  Forall (fun rq => call_console rq ∈ heap w) (trace w).
Proof.
  induction 1 as [|o w Hw IH]; [apply Forall_nil_2|].
  destruct (step_effect o w) as (cs & Hh & Ht & _ & _ & Hc).
  rewrite Hh, Ht. apply Forall_app. split.
  - eapply Forall_impl; [exact IH|]. intros rq Hrq. apply elem_of_app. by left.
  - eapply Forall_impl; [exact Hc|]. intros rq ->. apply elem_of_app. right.
    apply list_elem_of_singleton. reflexivity.
Qed.

Lemma heap_config w :
  reachable renderer w ->
  Forall (fun c => console_config c = (toolkit_theme, false)) (heap w).
Proof.
  induction 1 as [|o w Hw IH]; [apply Forall_nil_2|].
  rewrite heap_step. apply Forall_app. split; [done|].
  apply Forall_singleton. unfold console_config. simpl.
  by rewrite (reachable_theme _ _ Hw).
Qed.

Lemma heap_ids_seq w :
  reachable renderer w -> console_id <$> heap w = seq 0 (length (heap w)).
Proof.
  induction 1 as [|o w Hw IH]; [done|].
  rewrite heap_step, fmap_app, length_app, IH. simpl.
  by rewrite Nat.add_1_r, seq_S.
Qed.

End Trace.



(** X9.  The helpers never share a console: the requests of one
    operation all go to the console that this operation constructs, and
    that console received none of the requests issued before. *)
Theorem requests_on_fresh_console
    (renderer : Renderer) (o : Op) (w : World) :
  reachable renderer w ->
  exists c,
    heap (step renderer o w) = heap w ++ [c] /\
    Forall (fun rq => call_console rq = c)
      (drop (length (trace w)) (trace (step renderer o w))) /\
    Forall (fun rq => console_id (call_console rq) <> console_id c) (trace w).
Proof.
  intros Hw. destruct (step_effect renderer o w) as (cs & Hh & Ht & _ & _ & Hc).
  exists (mkConsole (length (heap w)) (theme_tbl w) false).
  split; [done|]. split.
  - by rewrite Ht, drop_app_length.
  - eapply Forall_impl; [apply (trace_consoles_in_heap _ _ Hw)|].
    intros rq Hrq. simpl in *. pose proof (heap_ids_below _ _ _ Hw Hrq). lia.
Qed.

Lemma requests_on_fresh_console_witness :
  exists c,
    heap (step fail_fast (OpPrintSection "Title" "Body text") module_load)
      = heap module_load ++ [c] /\
    Forall (fun rq => call_console rq = c)
      (drop (length (trace module_load))
         (trace (step fail_fast (OpPrintSection "Title" "Body text") module_load))) /\
    Forall (fun rq => console_id (call_console rq) <> console_id c) (trace module_load).
Proof.
  apply (requests_on_fresh_console fail_fast (OpPrintSection "Title" "Body text")
           module_load).
  apply reachable_load.
Defined.

(** X10.  After any sequence of operations from the loaded module the
    heap holds one console per operation, with pairwise distinct
    identities, each with the style table as theme and highlighting
    off. *)
Theorem consoles_of_exec (renderer : Renderer) (ops : list Op) :
  let w := exec renderer ops module_load in
  length (heap w) = length ops /\
  NoDup (console_id <$> heap w) /\
  Forall (fun c => console_config c = (toolkit_theme, false)) (heap w).
Proof.
  intros w.
  assert (Hw : reachable renderer w) by apply reachable_exec, reachable_load.
  split; [|split].
  - subst w. by rewrite heap_length_exec.
  - rewrite (heap_ids_seq _ _ Hw). apply NoDup_seq.
  - exact (heap_config _ _ Hw).
Qed.

(** ** Failures inside print_section *)

(** A state in which a client has replaced the theme. *)
Definition with_theme (theme : gmap string string) (w : World) : World :=
  mkWorld theme (icon_tbl w) (progress_tbl w) (heap w) (trace w).

(** X11.  If the console cannot resolve the style "title", the title
    request is the only one issued and its error ends the call: the body
    is not printed, however it looks.  The error is that of the missing
    style unless the title line itself is in error. *)
Theorem print_section_title_failure
    (renderer : Renderer) (w : World) (title body : string) :
  theme_tbl w !! "title" = None ->
  parse_style renderer "title" = false ->
  written (print_section renderer title body) w
    = [(String "010"%char title, "title")] /\
  returns (print_section renderer title body w) = false /\
  (render_markup renderer (String "010"%char title) = Return tt ->
   (print_section renderer title body w).1 = Raise (MissingStyle "title")).
Proof.
  intros Ht Hp. unfold written, issued, returns.
  rewrite print_section_run_gen. cbv zeta.
  unfold print_outcome, get_style. cbn [console_theme]. rewrite Ht, Hp.
  change (LF +:+ title) with (String "010"%char title).
  destruct (render_markup renderer (String "010"%char title)) as [[]|e];
    cbn [fst snd trace]; rewrite drop_app_length; by repeat split.
Qed.

Lemma print_section_title_failure_witness :
  written (print_section fail_fast "Title" "Body text") (with_theme ∅ module_load)
    = [(String "010"%char "Title", "title")] /\
  returns (print_section fail_fast "Title" "Body text" (with_theme ∅ module_load))
    = false /\
  (print_section fail_fast "Title" "Body text" (with_theme ∅ module_load)).1
    = Raise (MissingStyle "title").
Proof.
  destruct (print_section_title_failure fail_fast (with_theme ∅ module_load)
              "Title" "Body text") as (Hw & Hr & He); [reflexivity | reflexivity |].
  split; [exact Hw|]. split; [exact Hr|]. apply He. reflexivity.
Defined.



(** ** The table displays *)

Lemma foldl_insert_lookup_notin
    (items : list (string * string)) (d : gmap string string) (k : string) :
  k ∉ items.*1 ->
  foldl (fun d kv => <[kv.1 := kv.2]> d) d items !! k = d !! k.
Proof.
  revert d. induction items as [|[k' v'] items IH]; intros d Hk; [done|].
  simpl in *. apply not_elem_of_cons in Hk as [Hne Hk].
  rewrite IH by done. by rewrite lookup_insert_ne.
Qed.

Lemma foldl_insert_lookup_elem
    (items : list (string * string)) (d : gmap string string) (k v : string) :
  NoDup items.*1 -> (k, v) ∈ items ->
  foldl (fun d kv => <[kv.1 := kv.2]> d) d items !! k = Some v.
Proof.
  revert d. induction items as [|[k' v'] items IH]; intros d Hnd Hin.
  - by apply elem_of_nil in Hin.
  - simpl in *. apply NoDup_cons in Hnd as [Hk' Hnd].
    apply elem_of_cons in Hin as [Heq|Hin].
    + injection Heq as -> ->. rewrite foldl_insert_lookup_notin by done.
      apply lookup_insert_eq.
    + by apply IH.
Qed.

(** In a dict display without repeated keys, the bindings are exactly
    the entries. *)
Lemma dict_literal_lookup_NoDup items k v :
  NoDup items.*1 -> dict_literal items !! k = Some v <-> (k, v) ∈ items.
Proof.
  intros Hnd. split; [apply dict_literal_lookup_elem|].
  by apply foldl_insert_lookup_elem.
Qed.

(** X13.  No key is written twice in a table, so no entry overrides
    another: a lookup finds a value exactly when the table lists that
    entry, in each of the three tables. *)
Theorem tables_lookup_listed (key value : string) :
  (toolkit_theme !! key = Some value <-> (key, value) ∈ toolkit_theme_items) /\
  (STATUS_ICONS !! key = Some value <-> (key, value) ∈ STATUS_ICONS_items) /\
  (PROGRESS_BAR_STYLE !! key = Some value <-> (key, value) ∈ PROGRESS_BAR_STYLE_items).
Proof.
  destruct tables_keys_NoDup as (H1 & H2 & H3).
  repeat split; by apply dict_literal_lookup_NoDup.
Qed.

Lemma tables_lookup_listed_witness :
  toolkit_theme !! "strong" = Some "bold #00FF88".
Proof.
  apply (proj2 (proj1 (tables_lookup_listed "strong" "bold #00FF88"))).
  unfold toolkit_theme_items.
  repeat (first [apply list_elem_of_here | apply list_elem_of_further]).
Defined.

(** ** Colors *)

(** The color palette of the module docstring. *)
Definition palette : list (string * string) :=
  [ ("Background", "#0B0C10");
    ("Primary", "#00FF88");
    ("Secondary", "#00AEEF");
    ("Warning", "#FFD166");
    ("Error", "#FF5555");
    ("Text", "#E0E0E0");
    ("Muted", "#7B7F8B");
    ("Purple", "#B26FFF") ].

(** The color tokens of a style definition. *)
Definition colors_of (spec : string) : list string :=
  List.filter is_hex_color (words spec).

Lemma theme_colors_checked :
  Forall (fun kv : string * string =>
            Forall (fun color => color ∈ palette.*2 <->
                                 kv.1 ∉ ["diff.remove"; "table.border"])
              (colors_of kv.2))
    toolkit_theme_items.
Proof. compute_done. Qed.

Lemma progress_bar_checked :
  Forall (fun kv : string * string =>
            is_hex_color kv.2 = true /\ kv.2 ∈ palette.*2 /\
            kv.1 ∉ toolkit_theme_items.*1)
    PROGRESS_BAR_STYLE_items.
Proof. compute_done. Qed.

(** X14.  Every color of the style table is one of the eight colors the
    module docstring lists as its palette, except in two entries: the
    colors of "diff.remove" and of "table.border" are not in the
    palette. *)
Theorem theme_colors_palette (key spec color : string) :
  toolkit_theme !! key = Some spec ->
  color ∈ colors_of spec ->
  color ∈ palette.*2 <-> key ∉ ["diff.remove"; "table.border"].
Proof.
  intros H Hc. apply dict_literal_lookup_elem in H.
  pose proof theme_colors_checked as Hall.
  rewrite Forall_forall in Hall. specialize (Hall _ H). simpl in Hall.
  rewrite Forall_forall in Hall. exact (Hall _ Hc).
Qed.

Lemma theme_colors_palette_witness :
  ("#00FF88" ∈ palette.*2 <-> "path" ∉ ["diff.remove"; "table.border"]) /\
  ("#FF4C6A" ∈ palette.*2 <-> "diff.remove" ∉ ["diff.remove"; "table.border"]).
Proof.
  split.
  - apply (theme_colors_palette "path" "#00FF88" "#00FF88").
    + vm_compute. reflexivity.
    + apply list_elem_of_here.
  - apply (theme_colors_palette "diff.remove" "black on #FF4C6A" "#FF4C6A").
    + vm_compute. reflexivity.
    + apply list_elem_of_here.
Defined.

(** X15.  Every progress-bar style is a single color token of the
    palette, and none of the progress-bar style names is among the keys
    that the display of the style table lists. *)
Theorem progress_bar_styles (key spec : string) :
  PROGRESS_BAR_STYLE !! key = Some spec ->
  is_hex_color spec = true /\ spec ∈ palette.*2 /\ key ∉ toolkit_theme_items.*1.
Proof.
  intros H. apply dict_literal_lookup_elem in H.
  pose proof progress_bar_checked as Hall.
  rewrite Forall_forall in Hall. exact (Hall _ H).
Qed.

Lemma progress_bar_styles_witness :
  is_hex_color "#7B7F8B" = true /\ "#7B7F8B" ∈ palette.*2 /\
  "progress.elapsed" ∉ toolkit_theme_items.*1.
Proof.
  apply (progress_bar_styles "progress.elapsed" "#7B7F8B").
  vm_compute. reflexivity.
Defined.
